(** * Option pricing with the Black-Scholes formula (okok_app.py)

    A shallow embedding of the three classes of [okok_app.py]:

    - [OPTION_TYPE], the enumeration of the two selectors;
    - [OptionPricingModel], the abstract base class whose
      [calculate_option_price] dispatches on the selector;
    - [BlackScholesModel], the concrete model with its constructor and its
      two pricing hooks.

    The arithmetic of the methods is written once, over an interface
    [PyNum] that lists the operators and library calls the source uses.
    Two instances interpret it: [binary64], the IEEE 754 doubles the
    program runs on (with numpy's, scipy's and the C library's functions as
    a parameter),
    and [exact], the real numbers, in which the formulas have their
    mathematical meaning. *)

From Stdlib Require Import ZArith String Bool.
From Stdlib Require Import QArith Qreals.
From Stdlib Require Import Floats.
From Stdlib Require Import Reals Lra Lia Classical_Pred_Type.

Set Warnings "-inexact-float".

(** ** Outcomes of Python expressions *)

(** The two exceptions that arithmetic on Python floats can raise:
    [x / y] raises [ZeroDivisionError] when [y] is zero, and [x ** y]
    raises [OverflowError] when the result is out of range. *)
Inductive exn : Type :=
| ZeroDivisionError
| OverflowError.

Inductive outcome (A : Type) : Type :=
| Return (a : A)
| Raise (e : exn).

Arguments Return {A} a.
Arguments Raise {A} e.

(** A method is run on its object [self]; it yields an outcome and the
    object as the call leaves it. *)
Definition method (Self A : Type) : Type := Self -> outcome A * Self.

Definition ret {Self A : Type} (a : A) : method Self A :=
  fun self => (Return a, self).

Definition bind {Self A B : Type} (m : method Self A) (k : A -> method Self B)
  : method Self B :=
  fun self =>
    match m self with
    | (Return a, self') => k a self'
    | (Raise e, self') => (Raise e, self')
    end.

(** Reading the attribute [self.field]. *)
Definition attr {Self A : Type} (field : Self -> A) : method Self A :=
  fun self => (Return (field self), self).

(** An expression that does not touch [self]. *)
Definition eval {Self A : Type} (o : outcome A) : method Self A :=
  fun self => (o, self).

Declare Scope method_scope.
Delimit Scope method_scope with method.
Notation "x <- c ;; k" := (bind c (fun x => k))
  (at level 100, c at next level, right associativity) : method_scope.

(** ** The arithmetic the source uses *)

(** The attributes of a model are Python floats.  [self.S / self.K] and
    [days_to_maturity / 365] are divisions of Python floats, and
    [self.sigma ** 2] is a power of a Python float: these can raise.
    [np.log], [np.sqrt] and [np.exp] return numpy float64 scalars, and an
    operator with a float64 operand is numpy's: in particular the division
    of the numerator of [d1] by [self.sigma * np.sqrt(self.T)] is
    [np_truediv], which follows IEEE 754 and raises nothing. *)
Class PyNum (F : Type) : Type := {
  lit_0_5 : F;
  lit_0_0 : F;
  lit_1_0 : F;
  lit_365 : F;
  neg : F -> F;
  add : F -> F -> F;
  sub : F -> F -> F;
  mul : F -> F -> F;
  float_truediv : F -> F -> outcome F;
  float_pow_2 : F -> outcome F;
  np_truediv : F -> F -> F;
  np_log : F -> F;
  np_sqrt : F -> F;
  np_exp : F -> F;
  norm_cdf : F -> F -> F -> F
}.

Declare Scope py_scope.
Delimit Scope py_scope with py.
Notation "x + y" := (add x y) : py_scope.
Notation "x - y" := (sub x y) : py_scope.
Notation "x * y" := (mul x y) : py_scope.
Notation "- x" := (neg x) : py_scope.
Notation "x / y" := (np_truediv x y) : py_scope.

(** ** Python objects *)

Inductive OPTION_TYPE : Type :=
| CALL_OPTION
| PUT_OPTION.

(** [member.value] *)
Definition value (member : OPTION_TYPE) : string :=
  match member with
  | CALL_OPTION => "Call Option"
  | PUT_OPTION => "Put Option"
  end.

(** The objects a caller can pass as a selector, and the objects
    [calculate_option_price] returns. *)
Inductive object (F : Type) : Type :=
| PyStr (s : string)
| PyInt (z : Z)
| PyFloat (x : F)
| PyMember (member : OPTION_TYPE)
| PyNone.

Arguments PyStr {F} s.
Arguments PyInt {F} z.
Arguments PyFloat {F} x.
Arguments PyMember {F} member.
Arguments PyNone {F}.

(** [o == s] for a string [s]: only a string compares equal to a string.
    [OPTION_TYPE] derives from [Enum] alone, so a member is not equal to
    its value. *)
Definition py_eq_str {F : Type} (o : object F) (s : string) : bool :=
  match o with
  | PyStr s' => String.eqb s' s
  | _ => false
  end.

(** ** OptionPricingModel *)

Class OptionPricingModel (F Self : Type) : Type := {
  _calculate_call_option_price : method Self (object F);
  _calculate_put_option_price : method Self (object F)
}.

Definition calculate_option_price {F Self : Type} `{OptionPricingModel F Self}
  (option_type : object F) : method Self (object F) :=
  if py_eq_str option_type (value CALL_OPTION) then
    _calculate_call_option_price
  else if py_eq_str option_type (value PUT_OPTION) then
    _calculate_put_option_price
  else
    ret (PyInt (-1)).

(** ** BlackScholesModel *)

Record BlackScholesModel (F : Type) : Type := {
  self_S : F;
  self_K : F;
  self_T : F;
  self_r : F;
  self_sigma : F
}.

Arguments self_S {F} _.
Arguments self_K {F} _.
Arguments self_T {F} _.
Arguments self_r {F} _.
Arguments self_sigma {F} _.

Section Model.

Context {F : Type} `{PyNum F}.

Local Open Scope py_scope.
Local Open Scope method_scope.

(** The constructor: the only place that assigns attributes. *)
Definition __init__ (underlying_spot_price strike_price days_to_maturity
                       risk_free_rate sigma : F)
  : outcome (BlackScholesModel F) :=
  match float_truediv days_to_maturity lit_365 with
  | Return T =>
      Return {| self_S := underlying_spot_price;
                self_K := strike_price;
                self_T := T;
                self_r := risk_free_rate;
                self_sigma := sigma |}
  | Raise e => Raise e
  end.

(** The right-hand side of [d1 = ...], the same text in both hooks. *)
Definition local_d1 : method (BlackScholesModel F) F :=
  S <- attr self_S ;; K <- attr self_K ;; T <- attr self_T ;;
  r <- attr self_r ;; sigma <- attr self_sigma ;;
  q <- eval (float_truediv S K) ;;
  p <- eval (float_pow_2 sigma) ;;
  ret ((np_log q + (r + lit_0_5 * p) * T) / (sigma * np_sqrt T)).

(** The right-hand side of [d2 = ...], the same text in both hooks. *)
Definition local_d2 : method (BlackScholesModel F) F :=
  S <- attr self_S ;; K <- attr self_K ;; T <- attr self_T ;;
  r <- attr self_r ;; sigma <- attr self_sigma ;;
  q <- eval (float_truediv S K) ;;
  p <- eval (float_pow_2 sigma) ;;
  ret ((np_log q + (r - lit_0_5 * p) * T) / (sigma * np_sqrt T)).

Definition BlackScholesModel_calculate_call_option_price
  : method (BlackScholesModel F) (object F) :=
  d1 <- local_d1 ;;
  d2 <- local_d2 ;;
  S <- attr self_S ;; K <- attr self_K ;; T <- attr self_T ;;
  r <- attr self_r ;;
  ret (PyFloat (S * norm_cdf d1 lit_0_0 lit_1_0
                - K * np_exp (- r * T) * norm_cdf d2 lit_0_0 lit_1_0)).

Definition BlackScholesModel_calculate_put_option_price
  : method (BlackScholesModel F) (object F) :=
  d1 <- local_d1 ;;
  d2 <- local_d2 ;;
  S <- attr self_S ;; K <- attr self_K ;; T <- attr self_T ;;
  r <- attr self_r ;;
  ret (PyFloat (K * np_exp (- r * T) * norm_cdf (- d2) lit_0_0 lit_1_0
                - S * norm_cdf (- d1) lit_0_0 lit_1_0)).

#[export] Instance BlackScholesModel_OptionPricingModel
  : OptionPricingModel F (BlackScholesModel F) := {
  _calculate_call_option_price := BlackScholesModel_calculate_call_option_price;
  _calculate_put_option_price := BlackScholesModel_calculate_put_option_price
}.

End Model.

(** ** The doubles the program runs on *)

(** [numpy.log], [numpy.exp], [scipy.stats.norm.cdf] and the C library's
    [pow], which CPython calls for [**], are library code outside the
    repository: a model takes them as a parameter.  [pow] is not correctly
    rounded: [pow(0.5102, 2.0)] is [0.26030403999999996] with glibc, and
    [0.5102 * 0.5102] is [0.26030404].  What a model knows of it is the
    accuracy the C libraries document for it, an error below one unit in
    the last place: [pow(x, 2.0)] is the correctly rounded square or one of
    its two neighbours. *)
Class MathLib : Type := {
  lib_log : float -> float;
  lib_exp : float -> float;
  lib_norm_cdf : float -> float -> float -> float;
  lib_pow : float -> float -> float;
  lib_pow_2_accuracy : forall x : float,
    lib_pow x 2%float = (x * x)%float
    \/ lib_pow x 2%float = next_up (x * x)%float
    \/ lib_pow x 2%float = next_down (x * x)%float
}.

(** [x / y] on Python floats. *)
Definition float64_truediv (x y : float) : outcome float :=
  if (y =? 0)%float then Raise ZeroDivisionError else Return (x / y)%float.

(** The square of [x] is in range: it is finite, or [x] is infinite
    itself. *)
Definition pow_2_in_range (x : float) : bool :=
  negb (is_infinity (x * x)%float) || is_infinity x.

(** The value of [x ** 2] when it is in range, as CPython's [float_pow]
    computes it: NaN for NaN, [inf] for an infinite [x], [0.0] for a zero;
    otherwise the sign is dropped (the exponent is even), [1.0] is returned
    for one, and everything else is left to the C library's
    [pow(fabs(x), 2.0)]. *)
Definition pow_2_value {L : MathLib} (x : float) : float :=
  if is_nan x then x
  else if is_infinity x then PrimFloat.abs x
  else if (x =? 0)%float then 0%float
  else if (PrimFloat.abs x =? 1)%float then 1%float
  else lib_pow (PrimFloat.abs x) 2%float.

(** [x ** 2] on a Python float: [OverflowError] when a finite [x] gives an
    infinite result; a result that underflows is returned as it is. *)
Definition float64_pow_2 {L : MathLib} (x : float) : outcome float :=
  if pow_2_in_range x then Return (pow_2_value x) else Raise OverflowError.

#[export] Instance binary64 {L : MathLib} : PyNum float := {
  lit_0_5 := 0.5%float;
  lit_0_0 := 0%float;
  lit_1_0 := 1%float;
  lit_365 := 365%float;
  neg := PrimFloat.opp;
  add := PrimFloat.add;
  sub := PrimFloat.sub;
  mul := PrimFloat.mul;
  float_truediv := float64_truediv;
  float_pow_2 := float64_pow_2;
  np_truediv := PrimFloat.div;
  np_log := lib_log;
  np_sqrt := PrimFloat.sqrt;
  np_exp := lib_exp;
  norm_cdf := lib_norm_cdf
}.

(** What the C standard (Annex F) and scipy fix at the special points
    that the theorems below reach: [log(1)] is [+0], and the
    distribution function of NaN is NaN. *)
Record special_values (L : MathLib) : Prop := {
  log_one : @lib_log L 1%float = 0%float;
  norm_cdf_nan : @lib_norm_cdf L nan 0%float 1%float = nan
}.

(** A library that is right at the special points (zero, one, the
    infinities) and returns NaN everywhere else, with the correctly rounded
    square for [pow(x, 2.0)].  It shows that a [MathLib] with
    [special_values] exists; no theorem uses any other of its values. *)
Definition special_points : MathLib := {|
  lib_log := fun x =>
    if (x =? 1)%float then 0%float
    else if (x =? 0)%float then neg_infinity
    else if (x =? infinity)%float then infinity
    else nan;
  lib_exp := fun x =>
    if (x =? 0)%float then 1%float
    else if (x =? infinity)%float then infinity
    else if (x =? neg_infinity)%float then 0%float
    else nan;
  lib_norm_cdf := fun x loc scale =>
    if (x =? 0)%float then 0.5%float
    else if (x =? infinity)%float then 1%float
    else if (x =? neg_infinity)%float then 0%float
    else nan;
  lib_pow := fun x y => if (y =? 2)%float then (x * x)%float else nan;
  lib_pow_2_accuracy := fun x => or_introl eq_refl
|}.

(** ** Derivatives: three consequences of the mean value theorem *)

Section Derivatives.

Local Open Scope R_scope.

Lemma monotone_of_derivative (f f' : R -> R) :
  (forall x, derivable_pt_lim f x (f' x)) ->
  (forall x, 0 <= f' x) ->
  forall x y, x <= y -> f x <= f y.
Proof.
  intros Hd Hpos x y [Hlt | ->]; [| lra].
  destruct (MVT_cor2 f f' x y Hlt (fun c _ => Hd c)) as [c [Hc _]].
  specialize (Hpos c). nra.
Qed.

Lemma constant_of_derivative (f : R -> R) :
  (forall x, derivable_pt_lim f x 0) -> forall x y, f x = f y.
Proof.
  intros Hd.
  assert (Hle : forall x y, x <= y -> f x = f y).
  { intros x y [Hlt | ->]; [| reflexivity].
    destruct (MVT_cor2 f (fun _ => 0) x y Hlt (fun c _ => Hd c)) as [c [Hc _]].
    lra. }
  intros x y. destruct (Rle_or_lt x y) as [H | H].
  - apply Hle, H.
  - symmetry. apply Hle. lra.
Qed.

Lemma affine_derivable_pt_lim a b z : derivable_pt_lim (fun z => z * a + b) z a.
Proof.
  intros eps Heps. exists (mkposreal 1 Rlt_0_1). intros h Hh _.
  replace (((z + h) * a + b - (z * a + b)) / h - a) with 0 by (field; exact Hh).
  rewrite Rabs_R0. exact Heps.
Qed.

Lemma shift_derivable_pt_lim b z : derivable_pt_lim (fun z => z + b) z 1.
Proof.
  intros eps Heps. exists (mkposreal 1 Rlt_0_1). intros h Hh _.
  replace ((z + h + b - (z + b)) / h - 1) with 0 by (field; exact Hh).
  rewrite Rabs_R0. exact Heps.
Qed.

End Derivatives.

(** ** The standard normal distribution over the reals *)

(** [scipy.stats.norm.cdf(x, 0.0, 1.0)] is the distribution function of
    the normal law with mean 0 and standard deviation 1, whose density is
    proportional to [exp (- t * t / 2)].  Over the reals it is built here
    from the Riemann integral of that Gaussian, normalised to total
    mass one. *)

Section Normal.

Local Open Scope R_scope.

Definition gauss (t : R) : R := exp (- (t * t / 2)).

Lemma gauss_continuity : continuity gauss.
Proof. unfold gauss. reg. Qed.

Lemma gauss_pos t : 0 < gauss t.
Proof. apply exp_pos. Qed.

Lemma gauss_integrable (a b : R) : Riemann_integrable gauss a b.
Proof.
  destruct (Rle_dec a b) as [Hab | Hab].
  - apply continuity_implies_RiemannInt; [exact Hab | intros; apply gauss_continuity].
  - apply RiemannInt_P1, continuity_implies_RiemannInt; [lra | intros; apply gauss_continuity].
Defined.

Definition gauss_int (x : R) : R := RiemannInt (gauss_integrable 0 x).

Lemma gauss_int_0 : gauss_int 0 = 0.
Proof. unfold gauss_int. apply RiemannInt_P9. Qed.

Lemma gauss_int_derivable_pt_lim x : derivable_pt_lim gauss_int x (gauss x).
Proof.
  assert (h : x - 1 <= x + 1) by lra.
  assert (C0 : forall z, x - 1 <= z <= x + 1 -> continuity_pt gauss z)
    by (intros; apply gauss_continuity).
  pose (P := primitive h (FTC_P1 h C0)).
  apply derivable_pt_lim_locally_ext
    with (f := fun z => gauss_int (x - 1) + P z) (a := x - 1) (b := x + 1).
  - lra.
  - intros z Hz. unfold P, primitive.
    destruct (Rle_dec (x - 1) z) as [H1 | H1]; [| lra].
    destruct (Rle_dec z (x + 1)) as [H2 | H2]; [| lra].
    unfold gauss_int. apply RiemannInt_P26.
  - replace (gauss x) with (0 + gauss x) by ring.
    apply derivable_pt_lim_plus.
    + apply derivable_pt_lim_const.
    + apply RiemannInt_P27. lra.
Qed.

Lemma gauss_int_increasing x y : x <= y -> gauss_int x <= gauss_int y.
Proof.
  apply monotone_of_derivative with (f' := gauss).
  - apply gauss_int_derivable_pt_lim.
  - intro z. left. apply gauss_pos.
Qed.

Lemma gauss_even x : gauss (- x) = gauss x.
Proof. unfold gauss. replace (- x * - x) with (x * x) by ring. reflexivity. Qed.

Lemma gauss_int_odd x : gauss_int (- x) = - gauss_int x.
Proof.
  assert (Hd : forall z, derivable_pt_lim (fun z => gauss_int z + gauss_int (- z)) z 0).
  { intro z.
    replace 0 with (gauss z + gauss (- z) * (- 1)) by (rewrite gauss_even; ring).
    apply derivable_pt_lim_plus.
    - apply gauss_int_derivable_pt_lim.
    - apply (derivable_pt_lim_comp (fun z => - z) gauss_int).
      + replace (-1) with (- 1) by ring. apply derivable_pt_lim_opp, derivable_pt_lim_id.
      + apply gauss_int_derivable_pt_lim. }
  pose proof (constant_of_derivative _ Hd x 0) as H. simpl in H.
  rewrite Ropp_0, gauss_int_0 in H. lra.
Qed.

Lemma gauss_le_exp x : gauss x <= exp (1 / 2 - x).
Proof.
  unfold gauss.
  assert (H : - (x * x / 2) <= 1 / 2 - x)
    by (pose proof (Rle_0_sqr (x - 1)) as Hs; unfold Rsqr in Hs; nra).
  destruct H as [H | H].
  - left. apply exp_increasing, H.
  - rewrite H. apply Rle_refl.
Qed.

Lemma gauss_int_bounded x : gauss_int x <= exp (1 / 2).
Proof.
  pose (D := fun z => exp (1 / 2) - exp (1 / 2 - z) - gauss_int z).
  assert (Hd : forall z, derivable_pt_lim D z (exp (1 / 2 - z) - gauss z)).
  { intro z. unfold D.
    apply derivable_pt_lim_minus; [| apply gauss_int_derivable_pt_lim].
    replace (exp (1 / 2 - z)) with (0 - exp (1 / 2 - z) * (0 - 1)) by ring.
    apply derivable_pt_lim_minus; [apply derivable_pt_lim_const |].
    apply (derivable_pt_lim_comp (fun z => 1 / 2 - z) exp).
    - apply derivable_pt_lim_minus; [apply derivable_pt_lim_const | apply derivable_pt_lim_id].
    - apply derivable_pt_lim_exp. }
  assert (Hmono : forall a b, a <= b -> D a <= D b).
  { apply monotone_of_derivative with (f' := fun z => exp (1 / 2 - z) - gauss z).
    - exact Hd.
    - intro z. pose proof (gauss_le_exp z). lra. }
  destruct (Rle_or_lt 0 x) as [H | H].
  - specialize (Hmono 0 x H). unfold D in Hmono.
    rewrite gauss_int_0 in Hmono.
    replace (1 / 2 - 0) with (1 / 2) in Hmono by lra.
    pose proof (exp_pos (1 / 2 - x)). lra.
  - pose proof (gauss_int_increasing x 0 (Rlt_le _ _ H)) as Hx.
    rewrite gauss_int_0 in Hx. pose proof (exp_pos (1 / 2)). lra.
Qed.

Definition gauss_int_values (y : R) : Prop := exists x, y = gauss_int x.

Lemma gauss_int_values_bound : bound gauss_int_values.
Proof.
  exists (exp (1 / 2)). intros y [x ->]. apply gauss_int_bounded.
Qed.

Lemma gauss_int_values_inhabited : exists y, gauss_int_values y.
Proof. exists (gauss_int 0), 0. reflexivity. Qed.

(** Half of the total mass of [gauss]: the least upper bound of its
    integrals from 0 (the integral over the positive half line). *)
Definition gauss_half_mass : R :=
  proj1_sig (completeness gauss_int_values gauss_int_values_bound
               gauss_int_values_inhabited).

Lemma gauss_half_mass_lub : is_lub gauss_int_values gauss_half_mass.
Proof.
  unfold gauss_half_mass.
  destruct (completeness _ _ _) as [m Hm]. exact Hm.
Qed.

Lemma gauss_int_le_half_mass x : gauss_int x <= gauss_half_mass.
Proof.
  destruct gauss_half_mass_lub as [Hub _]. apply Hub. exists x. reflexivity.
Qed.

Lemma gauss_half_mass_pos : 0 < gauss_half_mass.
Proof.
  apply Rlt_le_trans with (gauss_int 1); [| apply gauss_int_le_half_mass].
  destruct (MVT_cor2 gauss_int gauss 0 1 Rlt_0_1
              (fun c _ => gauss_int_derivable_pt_lim c)) as [c [Hc _]].
  rewrite gauss_int_0 in Hc. pose proof (gauss_pos c). lra.
Qed.

Lemma gauss_int_near_half_mass (delta : R) :
  0 < delta -> exists x, gauss_half_mass - delta < gauss_int x.
Proof.
  intro Hdelta.
  destruct gauss_half_mass_lub as [_ Hleast].
  apply not_all_not_ex. intro Hall.
  assert (Hub : is_upper_bound gauss_int_values (gauss_half_mass - delta)).
  { intros y [x ->]. specialize (Hall x). lra. }
  specialize (Hleast _ Hub). lra.
Qed.

(** The distribution function of the standard normal law: the mass of
    the Gaussian below [x], over its total mass. *)
Definition Phi (x : R) : R := 1 / 2 + gauss_int x / (2 * gauss_half_mass).

(** Its density. *)
Definition phi (x : R) : R := gauss x / (2 * gauss_half_mass).

End Normal.

(** ** Polynomials that enclose the Gaussian and its integral *)

(** The Taylor polynomials of [exp (- u)], and their primitives along
    [u = x * x / 2]: on the positive half line they are alternately above
    and below [exp (- u)] and [gauss_int].  They are written twice, over
    the reals, where the bounds are proved, and over the rationals, where
    they compute. *)

Section Polynomials.

Local Open Scope R_scope.




End Polynomials.




(** ** Exact arithmetic *)

(** The same operators over the real numbers: division of Python floats
    still raises on a zero divisor, a square never overflows, and
    [norm.cdf(x, loc, scale)] is the normal distribution function at
    [(x - loc) / scale]. *)
Definition exact_truediv (x y : R) : outcome R :=
  if Req_dec_T y 0 then Raise ZeroDivisionError else Return (x / y)%R.

#[export] Instance exact : PyNum R := {
  lit_0_5 := 0.5%R;
  lit_0_0 := 0%R;
  lit_1_0 := 1%R;
  lit_365 := 365%R;
  neg := Ropp;
  add := Rplus;
  sub := Rminus;
  mul := Rmult;
  float_truediv := exact_truediv;
  float_pow_2 := fun x => Return (x ^ 2)%R;
  np_truediv := Rdiv;
  np_log := ln;
  np_sqrt := sqrt;
  np_exp := exp;
  norm_cdf := fun x loc scale => Phi ((x - loc) / scale)%R
}.

(** ** The formulas of the specification *)

(** Written from the specification's text, over the reals. *)
Section Formulas.

Local Open Scope R_scope.

Variables S K T r sigma : R.

Definition formula_d1 : R :=
  (ln (S / K) + (r + 0.5 * sigma ^ 2) * T) / (sigma * sqrt T).

Definition formula_d2 : R :=
  (ln (S / K) + (r - 0.5 * sigma ^ 2) * T) / (sigma * sqrt T).

Definition price_call : R :=
  S * Phi formula_d1 - K * exp (- (r * T)) * Phi formula_d2.

Definition price_put : R :=
  K * exp (- (r * T)) * Phi (- formula_d2) - S * Phi (- formula_d1).

End Formulas.

(** A model is valid when [S], [K], [T] and [sigma] are positive. *)
Definition valid_exact (self : BlackScholesModel R) : Prop :=
  (0 < self_S self /\ 0 < self_K self /\ 0 < self_T self /\ 0 < self_sigma self)%R.

(** The specification's scenario: [S = 100], [K = 100], 365 days,
    [r = 0.05], [sigma = 0.2]. *)
Definition textbook_model_exact : BlackScholesModel R :=
  {| self_S := 100%R; self_K := 100%R; self_T := 1%R; self_r := 0.05%R;
     self_sigma := 0.2%R |}.

(** ** The formulas and the claims on doubles *)

(** The formulas of the specification with every operation rounded to
    binary64, the library's functions for [ln], [exp] and the distribution
    function, and [sigma^2] as Python's [sigma ** 2] gives it. *)
Section Binary64Formulas.

Context {L : MathLib}.

Local Open Scope float_scope.

Variables S K T r sigma : float.

Definition Phi_binary64 (x : float) : float := lib_norm_cdf x 0 1.

Definition d1_binary64 : float :=
  (lib_log (S / K) + (r + 0.5 * pow_2_value sigma) * T) / (sigma * PrimFloat.sqrt T).

Definition d2_binary64 : float :=
  (lib_log (S / K) + (r - 0.5 * pow_2_value sigma) * T) / (sigma * PrimFloat.sqrt T).

Definition price_call_binary64 : float :=
  S * Phi_binary64 d1_binary64 - K * lib_exp (- (r * T)) * Phi_binary64 d2_binary64.

Definition price_put_binary64 : float :=
  K * lib_exp (- (r * T)) * Phi_binary64 (- d2_binary64)
  - S * Phi_binary64 (- d1_binary64).

End Binary64Formulas.

Section Binary64Claims.

Context {L : MathLib}.

Local Open Scope float_scope.

(** Valid parameters as doubles: [S], [K], [T] and [sigma] positive and
    [r] a finite number. *)
Definition valid_binary64 (self : BlackScholesModel float) : bool :=
  (0 <? self_S self) && (0 <? self_K self) && (0 <? self_T self)
  && (0 <? self_sigma self) && is_finite (self_r self).

(** Put-call parity within the tolerance [1e-6], on the prices the two
    selectors return. *)
Definition put_call_parity_binary64 (self : BlackScholesModel float) : Prop :=
  exists call put : float,
    calculate_option_price (PyStr "Call Option") self = (Return (PyFloat call), self)
    /\ calculate_option_price (PyStr "Put Option") self = (Return (PyFloat put), self)
    /\ (PrimFloat.abs (call - put
             - (self_S self - self_K self * lib_exp (- (self_r self * self_T self))))
        <=? 1e-6) = true.

(** Both prices are non-negative and above the discounted forward
    value. *)
Definition no_arbitrage_bounds_binary64 (self : BlackScholesModel float) : Prop :=
  exists call put : float,
    calculate_option_price (PyStr "Call Option") self = (Return (PyFloat call), self)
    /\ calculate_option_price (PyStr "Put Option") self = (Return (PyFloat put), self)
    /\ (0 <=? call) = true /\ (0 <=? put) = true
    /\ (self_S self - self_K self * lib_exp (- (self_r self * self_T self)) <=? call)
       = true
    /\ (self_K self * lib_exp (- (self_r self * self_T self)) - self_S self <=? put)
       = true.

(** Pricing raises an exception. *)
Definition raises_domain_error (option_type : object float)
  (self : BlackScholesModel float) : Prop :=
  exists e : exn, fst (calculate_option_price option_type self) = Raise e.

(** The value bound to [d2] is numerically equal to [d1 - sigma * sqrt(T)]. *)
Definition d2_is_d1_minus_volatility_binary64 (self : BlackScholesModel float) : Prop :=
  exists d1 d2 : float,
    local_d1 self = (Return d1, self)
    /\ local_d2 self = (Return d2, self)
    /\ (d2 =? d1 - self_sigma self * PrimFloat.sqrt (self_T self)) = true.

End Binary64Claims.

(** The models the examples run on, as the constructor stores them. *)

(** [BlackScholesModel(100, 100, 365, 0.05, 0.2)] *)
Definition textbook_model : BlackScholesModel float :=
  {| self_S := 100%float; self_K := 100%float; self_T := 1%float;
     self_r := 0.05%float; self_sigma := 0.2%float |}.

(** [BlackScholesModel(100, 100, 365, 0.05, 1e200)] *)
Definition huge_volatility_model : BlackScholesModel float :=
  {| self_S := 100%float; self_K := 100%float; self_T := 1%float;
     self_r := 0.05%float; self_sigma := 1e200%float |}.

(** [BlackScholesModel(100, 100, 1e-300, 0, 1e-200)] *)
Definition underflow_model : BlackScholesModel float :=
  {| self_S := 100%float; self_K := 100%float; self_T := (1e-300 / 365)%float;
     self_r := 0%float; self_sigma := 1e-200%float |}.

(** [BlackScholesModel(100, 100, 365, 0, 0)] *)
Definition zero_volatility_model : BlackScholesModel float :=
  {| self_S := 100%float; self_K := 100%float; self_T := 1%float;
     self_r := 0%float; self_sigma := 0%float |}.

(** [BlackScholesModel(100, 100, 0, 0.05, 0.2)] *)
Definition expiry_model : BlackScholesModel float :=
  {| self_S := 100%float; self_K := 100%float; self_T := 0%float;
     self_r := 0.05%float; self_sigma := 0.2%float |}.

(** [BlackScholesModel(100, 100, 365, 0.05, 0.5102)]: a volatility at which
    glibc's [pow(sigma, 2.0)] is the double below [sigma * sigma]. *)
Definition inexact_pow_model : BlackScholesModel float :=
  {| self_S := 100%float; self_K := 100%float; self_T := 1%float;
     self_r := 0.05%float; self_sigma := 0.5102%float |}.

(** * Theorems *)

(** ** The dispatch of [calculate_option_price] *)

Section Dispatch.

Context {F Self : Type} `{OptionPricingModel F Self}.

Lemma py_eq_str_true (o : object F) (s : string) :
  py_eq_str o s = true <-> o = PyStr s.
Proof.
  destruct o; simpl; try (split; [discriminate | discriminate]).
  rewrite String.eqb_eq. split; [intros -> | intros [= ->]]; reflexivity.
Qed.

Lemma py_eq_str_false (o : object F) (s : string) :
  o <> PyStr s -> py_eq_str o s = false.
Proof.
  intro Hne. destruct (py_eq_str o s) eqn:E; [| reflexivity].
  apply py_eq_str_true in E. contradiction.
Qed.

Lemma calculate_option_price_dispatch_other (option_type : object F) (self : Self) :
  option_type <> PyStr "Call Option" ->
  option_type <> PyStr "Put Option" ->
  calculate_option_price option_type self = (Return (PyInt (-1)), self).
Proof.
  intros Hcall Hput. unfold calculate_option_price, value.
  rewrite (py_eq_str_false _ _ Hcall), (py_eq_str_false _ _ Hput). reflexivity.
Qed.

(** C3.  For every model and every selector: the string ['Call Option']
    gets the result of the call hook, the string ['Put Option'] the result
    of the put hook, and every other selector gets exactly [-1], with no
    exception and whatever the model holds. *)
Theorem calculate_option_price_dispatch (option_type : object F) (self : Self) :
  (option_type = PyStr "Call Option" ->
   calculate_option_price option_type self = _calculate_call_option_price self)
  /\ (option_type = PyStr "Put Option" ->
      calculate_option_price option_type self = _calculate_put_option_price self)
  /\ (option_type <> PyStr "Call Option" ->
      option_type <> PyStr "Put Option" ->
      calculate_option_price option_type self = (Return (PyInt (-1)), self)).
Proof.
  repeat split.
  - intros ->. reflexivity.
  - intros ->. reflexivity.
  - apply calculate_option_price_dispatch_other.
Qed.

(** C10.  A member of [OPTION_TYPE] passed as the selector matches
    neither branch: the dispatch compares with the members' strings, and
    the answer is [-1]. *)
Theorem calculate_option_price_member (member : OPTION_TYPE) (self : Self) :
  calculate_option_price (PyMember member) self = (Return (PyInt (-1)), self).
Proof.
  apply calculate_option_price_dispatch_other; intro Heq; discriminate Heq.
Qed.

End Dispatch.

(** ** No method assigns an attribute *)

Section Frame.

Context {F : Type} `{PyNum F}.

Lemma bind_frame {A B : Type} (c : method (BlackScholesModel F) A)
  (k : A -> method (BlackScholesModel F) B) (self : BlackScholesModel F) :
  snd (c self) = self -> (forall a, snd (k a self) = self) ->
  snd (bind c k self) = self.
Proof.
  unfold bind. destruct (c self) as [[a | e] self']; simpl; intros -> Hk;
    [apply Hk | reflexivity].
Qed.

Lemma local_d1_frame (self : BlackScholesModel F) : snd (local_d1 self) = self.
Proof.
  unfold local_d1, bind, attr, eval, ret. simpl.
  destruct (float_truediv _ _); [| reflexivity].
  destruct (float_pow_2 _); reflexivity.
Qed.

Lemma local_d2_frame (self : BlackScholesModel F) : snd (local_d2 self) = self.
Proof.
  unfold local_d2, bind, attr, eval, ret. simpl.
  destruct (float_truediv _ _); [| reflexivity].
  destruct (float_pow_2 _); reflexivity.
Qed.

Lemma call_frame (self : BlackScholesModel F) :
  snd (BlackScholesModel_calculate_call_option_price self) = self.
Proof.
  unfold BlackScholesModel_calculate_call_option_price.
  apply bind_frame; [apply local_d1_frame | intro d1].
  apply bind_frame; [apply local_d2_frame | intro d2]. reflexivity.
Qed.

Lemma put_frame (self : BlackScholesModel F) :
  snd (BlackScholesModel_calculate_put_option_price self) = self.
Proof.
  unfold BlackScholesModel_calculate_put_option_price.
  apply bind_frame; [apply local_d1_frame | intro d1].
  apply bind_frame; [apply local_d2_frame | intro d2]. reflexivity.
Qed.

Lemma calculate_option_price_frame (option_type : object F)
  (self : BlackScholesModel F) :
  snd (calculate_option_price option_type self) = self.
Proof.
  unfold calculate_option_price.
  destruct (py_eq_str option_type (value CALL_OPTION)); [apply call_frame |].
  destruct (py_eq_str option_type (value PUT_OPTION)); [apply put_frame | reflexivity].
Qed.

End Frame.

Section Construction.

Context {L : MathLib}.

Local Open Scope float_scope.

(** C6.  The constructor stores its arguments unchanged, except the days
    to maturity, stored as the year fraction [days / 365]; no pricing call
    changes the model, so a call gives the same outcome whatever calls
    came before it. *)
Theorem model_is_immutable (S K days r sigma : float) :
  __init__ S K days r sigma
  = Return {| self_S := S; self_K := K; self_T := days / 365;
              self_r := r; self_sigma := sigma |}
  /\ (forall (self : BlackScholesModel float) (option_type : object float),
        snd (calculate_option_price option_type self) = self)
  /\ (forall (self : BlackScholesModel float) (first second : object float),
        calculate_option_price second (snd (calculate_option_price first self))
        = calculate_option_price second self).
Proof.
  split; [reflexivity | split].
  - intros. apply calculate_option_price_frame.
  - intros. rewrite calculate_option_price_frame. reflexivity.
Qed.

End Construction.

(** The example models are what the constructor builds. *)
Lemma example_models_constructed (L : MathLib) :
  __init__ 100%float 100%float 365%float 0.05%float 0.2%float
  = Return textbook_model
  /\ __init__ 100%float 100%float 365%float 0.05%float 1e200%float
     = Return huge_volatility_model
  /\ __init__ 100%float 100%float 1e-300%float 0%float 1e-200%float
     = Return underflow_model
  /\ __init__ 100%float 100%float 365%float 0%float 0%float
     = Return zero_volatility_model
  /\ __init__ 100%float 100%float 0%float 0.05%float 0.2%float
     = Return expiry_model.
Proof. repeat split; reflexivity. Qed.

(** The dispatch at a selector that is neither string, on the textbook
    model. *)
Lemma calculate_option_price_dispatch_witness :
  @calculate_option_price float _
    (@BlackScholesModel_OptionPricingModel float (@binary64 special_points))
    (PyStr "Straddle") textbook_model
  = (Return (PyInt (-1)), textbook_model).
Proof.
  apply (proj2 (proj2 (@calculate_option_price_dispatch float _
    (@BlackScholesModel_OptionPricingModel float (@binary64 special_points))
    (PyStr "Straddle") textbook_model))); discriminate.
Defined.

(** ** Facts of binary64 arithmetic *)

Section Binary64Arithmetic.

Local Open Scope float_scope.

Lemma Prim2SF_inj (x y : float) : Prim2SF x = Prim2SF y -> x = y.
Proof.
  intro H. rewrite <- (SF2Prim_Prim2SF x), <- (SF2Prim_Prim2SF y), H. reflexivity.
Qed.

Lemma SFopp_binary_round_aux prec emax sx mx ex lx :
  SFopp (binary_round_aux prec emax sx mx ex lx)
  = binary_round_aux prec emax (negb sx) mx ex lx.
Proof.
  unfold binary_round_aux.
  destruct (shr_fexp prec emax mx ex lx) as [mrs' e'].
  destruct (shr_fexp prec emax _ e' loc_Exact) as [mrs'' e''].
  destruct (shr_m mrs''); [reflexivity | | reflexivity].
  destruct (Z.leb e'' (Z.sub emax prec)); reflexivity.
Qed.

Lemma SFmul_opp_l prec emax x y :
  SFmul prec emax (SFopp x) y = SFopp (SFmul prec emax x y).
Proof.
  destruct x as [sx | sx | | sx mx ex], y as [sy | sy | | sy my ey]; simpl;
    try reflexivity;
    try (destruct sx, sy; reflexivity).
  rewrite SFopp_binary_round_aux. destruct sx, sy; reflexivity.
Qed.

(** Rounding is symmetric: [-x * y] is [-(x * y)]. *)
Lemma float_opp_mul (x y : float) : - x * y = - (x * y).
Proof.
  apply Prim2SF_inj.
  rewrite opp_spec, !mul_spec, opp_spec. apply SFmul_opp_l.
Qed.

Lemma float_pos_nonzero (x : float) : (0 <? x) = true -> (x =? 0) = false.
Proof.
  rewrite ltb_spec, eqb_spec.
  change (Prim2SF 0) with (S754_zero false).
  destruct (Prim2SF x) as [s | s | | s m e]; simpl; try discriminate;
    destruct s; simpl; try discriminate; reflexivity.
Qed.

Lemma float_zero_pow_2_in_range (x : float) :
  (x =? 0) = true -> pow_2_in_range x = true.
Proof.
  rewrite eqb_spec. change (Prim2SF 0) with (S754_zero false).
  intro H. rewrite <- (SF2Prim_Prim2SF x).
  destruct (Prim2SF x) as [s | s | | s m e]; simpl in H; try discriminate;
    destruct s; try discriminate; reflexivity.
Qed.

Lemma float_mul_nan_r (x : float) : x * nan = nan.
Proof.
  apply Prim2SF_inj. rewrite mul_spec.
  change (Prim2SF nan) with S754_nan.
  destruct (Prim2SF x); reflexivity.
Qed.

Lemma float_sub_nan_l (x : float) : nan - x = nan.
Proof.
  apply Prim2SF_inj. rewrite sub_spec.
  change (Prim2SF nan) with S754_nan. reflexivity.
Qed.

End Binary64Arithmetic.

(** ** The hooks on doubles *)

Section Binary64Pricing.

Context {L : MathLib}.

Local Open Scope float_scope.

Lemma local_d1_binary64 (self : BlackScholesModel float) :
  (self_K self =? 0) = false ->
  pow_2_in_range (self_sigma self) = true ->
  local_d1 self
  = (Return (d1_binary64 (self_S self) (self_K self) (self_T self)
               (self_r self) (self_sigma self)), self).
Proof.
  intros HK Hpow. unfold local_d1, bind, attr, eval, ret. simpl.
  unfold float64_truediv, float64_pow_2. rewrite HK, Hpow. reflexivity.
Qed.

Lemma local_d2_binary64 (self : BlackScholesModel float) :
  (self_K self =? 0) = false ->
  pow_2_in_range (self_sigma self) = true ->
  local_d2 self
  = (Return (d2_binary64 (self_S self) (self_K self) (self_T self)
               (self_r self) (self_sigma self)), self).
Proof.
  intros HK Hpow. unfold local_d2, bind, attr, eval, ret. simpl.
  unfold float64_truediv, float64_pow_2. rewrite HK, Hpow. reflexivity.
Qed.

Lemma valid_binary64_strike (self : BlackScholesModel float) :
  valid_binary64 self = true -> (self_K self =? 0) = false.
Proof.
  unfold valid_binary64. rewrite !andb_true_iff.
  intros [[[[_ HK] _] _] _]. apply float_pos_nonzero, HK.
Qed.

(** C1, amended.  For every model with positive [S], [K], [T] and [sigma]
    whose [sigma ** 2] is in range, the call hook returns
    [S * Phi(d1) - K * exp(-r*T) * Phi(d2)], with [d1] and [d2] as the
    specification writes them and [Phi] the distribution function at mean 0
    and standard deviation 1, every operation rounded to binary64 and
    [sigma^2] the value of Python's [sigma ** 2], which is the C library's
    [pow] and not always the rounded product [sigma * sigma]. *)
Theorem call_price_binary64 (self : BlackScholesModel float) :
  valid_binary64 self = true ->
  pow_2_in_range (self_sigma self) = true ->
  BlackScholesModel_calculate_call_option_price self
  = (Return (PyFloat (price_call_binary64 (self_S self) (self_K self) (self_T self)
                        (self_r self) (self_sigma self))), self).
Proof.
  intros Hvalid Hpow. pose proof (valid_binary64_strike self Hvalid) as HK.
  unfold BlackScholesModel_calculate_call_option_price, bind.
  rewrite (local_d1_binary64 self HK Hpow), (local_d2_binary64 self HK Hpow).
  unfold attr, ret, price_call_binary64, Phi_binary64. simpl.
  rewrite float_opp_mul. reflexivity.
Qed.

(** C2, amended.  For every model with positive [S], [K], [T] and [sigma]
    whose [sigma ** 2] is in range, the put hook returns
    [K * exp(-r*T) * Phi(-d2) - S * Phi(-d1)], every operation rounded to
    binary64 and [sigma^2] the value of Python's [sigma ** 2]. *)
Theorem put_price_binary64 (self : BlackScholesModel float) :
  valid_binary64 self = true ->
  pow_2_in_range (self_sigma self) = true ->
  BlackScholesModel_calculate_put_option_price self
  = (Return (PyFloat (price_put_binary64 (self_S self) (self_K self) (self_T self)
                        (self_r self) (self_sigma self))), self).
Proof.
  intros Hvalid Hpow. pose proof (valid_binary64_strike self Hvalid) as HK.
  unfold BlackScholesModel_calculate_put_option_price, bind.
  rewrite (local_d1_binary64 self HK Hpow), (local_d2_binary64 self HK Hpow).
  unfold attr, ret, price_put_binary64, Phi_binary64. simpl.
  rewrite float_opp_mul. reflexivity.
Qed.



(** C8, amended.  With a non-zero strike, a model built with [sigma = 0],
    or with [days_to_maturity = 0] and [sigma ** 2] in range, is
    constructed and priced without any exception: both selectors return a
    float64. *)
Theorem degenerate_parameters_raise_nothing (S K days r sigma : float) :
  (K =? 0) = false ->
  (sigma =? 0) = true \/ ((days =? 0) = true /\ pow_2_in_range sigma = true) ->
  exists (self : BlackScholesModel float) (call put : float),
    __init__ S K days r sigma = Return self
    /\ calculate_option_price (PyStr "Call Option") self = (Return (PyFloat call), self)
    /\ calculate_option_price (PyStr "Put Option") self = (Return (PyFloat put), self).
Proof.
  intros HK Hcase.
  assert (Hpow : pow_2_in_range sigma = true).
  { destruct Hcase as [Hsigma | [_ Hpow]];
      [apply float_zero_pow_2_in_range, Hsigma | exact Hpow]. }
  eexists. exists
    (S * Phi_binary64 (d1_binary64 S K (days / 365) r sigma)
     - K * lib_exp (- r * (days / 365))
       * Phi_binary64 (d2_binary64 S K (days / 365) r sigma)),
    (K * lib_exp (- r * (days / 365))
     * Phi_binary64 (- d2_binary64 S K (days / 365) r sigma)
     - S * Phi_binary64 (- d1_binary64 S K (days / 365) r sigma)).
  split; [reflexivity |].
  unfold calculate_option_price. simpl.
  unfold BlackScholesModel_calculate_call_option_price,
    BlackScholesModel_calculate_put_option_price, bind.
  rewrite local_d1_binary64, local_d2_binary64 by assumption.
  split; reflexivity.
Qed.

End Binary64Pricing.

(** The call hook on the textbook model. *)
Lemma call_price_binary64_witness :
  @BlackScholesModel_calculate_call_option_price float (@binary64 special_points)
    textbook_model
  = (Return (PyFloat (@price_call_binary64 special_points
                        100%float 100%float 1%float 0.05%float 0.2%float)),
     textbook_model).
Proof.
  apply (@call_price_binary64 special_points textbook_model); reflexivity.
Defined.

(** The put hook on the textbook model. *)
Lemma put_price_binary64_witness :
  @BlackScholesModel_calculate_put_option_price float (@binary64 special_points)
    textbook_model
  = (Return (PyFloat (@price_put_binary64 special_points
                        100%float 100%float 1%float 0.05%float 0.2%float)),
     textbook_model).
Proof.
  apply (@put_price_binary64 special_points textbook_model); reflexivity.
Defined.

(** [BlackScholesModel(100, 100, 365, 0, 0)] is constructed and priced. *)
Lemma degenerate_parameters_raise_nothing_witness :
  exists (self : BlackScholesModel float) (call put : float),
    @__init__ float (@binary64 special_points)
      100%float 100%float 365%float 0%float 0%float = Return self
    /\ @calculate_option_price float _
         (@BlackScholesModel_OptionPricingModel float (@binary64 special_points))
         (PyStr "Call Option") self = (Return (PyFloat call), self)
    /\ @calculate_option_price float _
         (@BlackScholesModel_OptionPricingModel float (@binary64 special_points))
         (PyStr "Put Option") self = (Return (PyFloat put), self).
Proof.
  apply (@degenerate_parameters_raise_nothing special_points);
    [reflexivity | left; reflexivity].
Defined.

(** ** The hooks at concrete models *)

Lemma special_points_special : special_values special_points.
Proof. split; reflexivity. Qed.

(** Runs a method on a concrete model: computes, rewrites the special
    values of the library and what is known of [pow], and computes
    again. *)
Ltac run_binary64 HL :=
  let Hlog := fresh "Hlog" in
  let Hcdf := fresh "Hcdf" in
  let Hmul := fresh "Hmul" in
  pose proof (log_one _ HL) as Hlog;
  pose proof (norm_cdf_nan _ HL) as Hcdf;
  pose proof float_mul_nan_r as Hmul;
  cbv -[lib_log lib_exp lib_norm_cdf lib_pow] in Hlog, Hcdf;
  cbv delta [nan] in Hmul;
  cbv -[lib_log lib_exp lib_norm_cdf lib_pow];
  repeat match goal with
         | Hpow : lib_pow _ _ = _ |- _ => rewrite Hpow; clear Hpow
         end;
  rewrite ?Hlog;
  cbv -[lib_log lib_exp lib_norm_cdf lib_pow];
  rewrite ?Hcdf, ?Hmul;
  cbv -[lib_log lib_exp lib_norm_cdf lib_pow].

(** The three values [pow(x, 2.0)] can have. *)
Ltac pow_2_cases x :=
  let Hpow := fresh "Hpow" in
  destruct (lib_pow_2_accuracy x) as [Hpow | [Hpow | Hpow]];
  cbv -[lib_pow] in Hpow.

Section Binary64Runs.

Context {L : MathLib}.

Hypothesis HL : special_values L.

Local Open Scope float_scope.

(** [sigma ** 2] is zero or the least subnormal with either sign, half of
    which rounds to zero; [sigma * sqrt(T)] underflows to zero and [d1] is
    [0 / 0]. *)
Lemma underflow_call :
  BlackScholesModel_calculate_call_option_price underflow_model
  = (Return (PyFloat nan), underflow_model).
Proof. pow_2_cases 1e-200; run_binary64 HL; reflexivity. Qed.

Lemma underflow_put :
  BlackScholesModel_calculate_put_option_price underflow_model
  = (Return (PyFloat nan), underflow_model).
Proof. pow_2_cases 1e-200; run_binary64 HL; reflexivity. Qed.

Lemma zero_volatility_call :
  BlackScholesModel_calculate_call_option_price zero_volatility_model
  = (Return (PyFloat nan), zero_volatility_model).
Proof. run_binary64 HL. reflexivity. Qed.

Lemma expiry_put :
  BlackScholesModel_calculate_put_option_price expiry_model
  = (Return (PyFloat nan), expiry_model).
Proof. pow_2_cases 0.2; run_binary64 HL; reflexivity. Qed.

(** On the textbook model [d1] does not depend on the last bit of
    [sigma ** 2]. *)
Lemma textbook_d1 :
  local_d1 textbook_model = (Return 0.35000000000000003, textbook_model).
Proof. pow_2_cases 0.2; run_binary64 HL; reflexivity. Qed.

(** [d2] does: it is [0.14999999999999999] when [sigma ** 2] is
    [0.04000000000000001] or the double below it, and
    [0.14999999999999997] when it is the double above. *)
Lemma textbook_d2 :
  local_d2 textbook_model = (Return 0.14999999999999999, textbook_model)
  \/ local_d2 textbook_model = (Return 0.14999999999999997, textbook_model).
Proof.
  pow_2_cases 0.2; run_binary64 HL;
    [left; reflexivity | right; reflexivity | left; reflexivity].
Qed.

(** [d1] follows the library's [pow]: with glibc's value of
    [pow(0.5102, 2.0)] it is [0.35310078400627198], and it would be
    [0.35310078400627209] with the rounded product. *)
Lemma inexact_pow_d1 :
  lib_pow 0.5102 2 = 0.26030403999999996 ->
  local_d1 inexact_pow_model = (Return 0.35310078400627198, inexact_pow_model).
Proof.
  intro Hpow. cbv -[lib_pow] in Hpow. run_binary64 HL. reflexivity.
Qed.

Lemma rounded_product_d1 :
  lib_pow 0.5102 2 = 0.5102 * 0.5102 ->
  local_d1 inexact_pow_model = (Return 0.35310078400627209, inexact_pow_model).
Proof.
  intro Hpow. cbv -[lib_pow] in Hpow. run_binary64 HL. reflexivity.
Qed.

End Binary64Runs.

Section Binary64Counterexamples.

Local Open Scope float_scope.

(** C1 fails as stated: [sigma = 1e200] is positive, and
    [self.sigma ** 2] raises [OverflowError] before any price is
    returned. *)
Lemma call_price_raises_on_overflow :
  valid_binary64 huge_volatility_model = true
  /\ forall L : MathLib,
       BlackScholesModel_calculate_call_option_price huge_volatility_model
       = (Raise OverflowError, huge_volatility_model).
Proof. split; [reflexivity | intro L; reflexivity]. Qed.

(** C2 fails as stated, at the same model. *)
Lemma put_price_raises_on_overflow :
  valid_binary64 huge_volatility_model = true
  /\ forall L : MathLib,
       BlackScholesModel_calculate_put_option_price huge_volatility_model
       = (Raise OverflowError, huge_volatility_model).
Proof. split; [reflexivity | intro L; reflexivity]. Qed.

(** C4 fails as stated: the parameters of [underflow_model] are valid, and
    both prices are NaN, which is within no tolerance of anything. *)
Lemma put_call_parity_fails_on_underflow :
  valid_binary64 underflow_model = true
  /\ forall L : MathLib, special_values L -> ~ put_call_parity_binary64 underflow_model.
Proof.
  split; [reflexivity |].
  intros L HL (call & put & Hcall & Hput & Htol).
  unfold calculate_option_price in Hcall, Hput. simpl in Hcall, Hput.
  rewrite (underflow_call HL) in Hcall. rewrite (underflow_put HL) in Hput.
  injection Hcall as <-. injection Hput as <-.
  rewrite !float_sub_nan_l in Htol. discriminate Htol.
Qed.

(** C7 fails as stated: at [underflow_model] the call price is NaN, and
    [0 <= NaN] does not hold. *)
Lemma no_arbitrage_bounds_fail_on_underflow :
  valid_binary64 underflow_model = true
  /\ forall L : MathLib, special_values L ->
       ~ no_arbitrage_bounds_binary64 underflow_model.
Proof.
  split; [reflexivity |].
  intros L HL (call & put & Hcall & _ & Hnonneg & _).
  unfold calculate_option_price in Hcall. simpl in Hcall.
  rewrite (underflow_call HL) in Hcall. injection Hcall as <-.
  discriminate Hnonneg.
Qed.

(** C8 fails as stated: with [sigma = 0], and with
    [days_to_maturity = 0], the model is constructed, no exception is
    raised, and the price returned is NaN. *)
Lemma degenerate_parameters_return_nan :
  special_values special_points
  /\ forall L : MathLib, special_values L ->
       __init__ 100 100 365 0 0 = Return zero_volatility_model
       /\ calculate_option_price (PyStr "Call Option") zero_volatility_model
          = (Return (PyFloat nan), zero_volatility_model)
       /\ ~ raises_domain_error (PyStr "Call Option") zero_volatility_model
       /\ __init__ 100 100 0 0.05 0.2 = Return expiry_model
       /\ calculate_option_price (PyStr "Put Option") expiry_model
          = (Return (PyFloat nan), expiry_model)
       /\ ~ raises_domain_error (PyStr "Put Option") expiry_model.
Proof.
  split; [exact special_points_special |].
  intros L HL.
  assert (Hcall : calculate_option_price (PyStr "Call Option") zero_volatility_model
                  = (Return (PyFloat nan), zero_volatility_model))
    by exact (zero_volatility_call HL).
  assert (Hput : calculate_option_price (PyStr "Put Option") expiry_model
                 = (Return (PyFloat nan), expiry_model))
    by exact (expiry_put HL).
  repeat split; try assumption.
  - intros [e He]. rewrite Hcall in He. discriminate He.
  - intros [e He]. rewrite Hput in He. discriminate He.
Qed.

(** C9 fails as stated: on the textbook model [d2] is
    [0.14999999999999999] or [0.14999999999999997], by the last bit of
    [sigma ** 2], and [d1 - sigma * sqrt(T)] is [0.15000000000000002]. *)
Lemma d2_differs_in_binary64 :
  valid_binary64 textbook_model = true
  /\ forall L : MathLib, special_values L ->
       ~ d2_is_d1_minus_volatility_binary64 textbook_model.
Proof.
  split; [reflexivity |].
  intros L HL (d1 & d2 & Hd1 & Hd2 & Heq).
  rewrite (textbook_d1 HL) in Hd1. injection Hd1 as <-.
  destruct (textbook_d2 HL) as [H | H]; rewrite H in Hd2;
    injection Hd2 as <-; discriminate Heq.
Qed.

End Binary64Counterexamples.

(** ** The standard normal distribution function *)

Section NormalFacts.

Local Open Scope R_scope.

Lemma phi_pos x : 0 < phi x.
Proof.
  unfold phi. apply Rdiv_lt_0_compat; [apply gauss_pos |].
  pose proof gauss_half_mass_pos. lra.
Qed.

Lemma Phi_derivable_pt_lim x : derivable_pt_lim Phi x (phi x).
Proof.
  unfold Phi, phi.
  replace (gauss x / (2 * gauss_half_mass))
    with (0 + gauss x * / (2 * gauss_half_mass)) by (unfold Rdiv; ring).
  apply derivable_pt_lim_plus; [apply derivable_pt_lim_const |].
  unfold Rdiv.
  replace (gauss x * / (2 * gauss_half_mass))
    with (gauss x * / (2 * gauss_half_mass) + gauss_int x * 0) by ring.
  apply (derivable_pt_lim_mult gauss_int (fun _ => / (2 * gauss_half_mass))).
  - apply gauss_int_derivable_pt_lim.
  - apply derivable_pt_lim_const.
Qed.

Lemma Phi_symmetry x : Phi (- x) = 1 - Phi x.
Proof.
  unfold Phi. rewrite gauss_int_odd. pose proof gauss_half_mass_pos. field. lra.
Qed.

Lemma Phi_le_1 x : Phi x <= 1.
Proof.
  unfold Phi. pose proof gauss_half_mass_pos as Hm.
  pose proof (gauss_int_le_half_mass x) as Hx.
  apply Rmult_le_reg_r with (2 * gauss_half_mass); [lra |].
  field_simplify; lra.
Qed.

Lemma Phi_ge_0 x : 0 <= Phi x.
Proof.
  pose proof (Phi_le_1 (- x)) as H. rewrite Phi_symmetry in H. lra.
Qed.

Lemma Phi_increasing x y : x <= y -> Phi x <= Phi y.
Proof.
  apply monotone_of_derivative with (f' := phi).
  - apply Phi_derivable_pt_lim.
  - intro z. left. apply phi_pos.
Qed.

Lemma Phi_vanishes eps : 0 < eps -> exists y0, forall y, y <= y0 -> Phi y < eps.
Proof.
  intro Heps. pose proof gauss_half_mass_pos as Hm.
  destruct (gauss_int_near_half_mass (2 * gauss_half_mass * eps)) as [x0 Hx0]; [nra |].
  exists (- x0). intros y Hy.
  apply Rle_lt_trans with (Phi (- x0)); [apply Phi_increasing, Hy |].
  unfold Phi. rewrite gauss_int_odd.
  apply Rmult_lt_reg_r with (2 * gauss_half_mass); [lra |].
  field_simplify; lra.
Qed.

Lemma gauss_shift z a : exp (z * a + a * a / 2) * gauss (z + a) = gauss z.
Proof.
  unfold gauss. rewrite <- exp_plus. f_equal. field.
Qed.

(** The inequality behind the no-arbitrage bounds. *)
Lemma Phi_shift x a : 0 <= a -> Phi x <= exp (x * a + a * a / 2) * Phi (x + a).
Proof.
  intro Ha.
  pose (E := fun z => exp (z * a + a * a / 2)).
  pose (h := fun z => E z * Phi (z + a) - Phi z).
  pose (h' := fun z => (E z * a) * Phi (z + a) + E z * phi (z + a) - phi z).
  assert (HE : forall z, derivable_pt_lim E z (E z * a)).
  { intro z. unfold E.
    apply (derivable_pt_lim_comp (fun z => z * a + a * a / 2) exp).
    - apply affine_derivable_pt_lim.
    - apply derivable_pt_lim_exp. }
  assert (HP : forall z, derivable_pt_lim (fun z => Phi (z + a)) z (phi (z + a))).
  { intro z. replace (phi (z + a)) with (phi (z + a) * 1) by ring.
    apply (derivable_pt_lim_comp (fun z => z + a) Phi).
    - apply shift_derivable_pt_lim.
    - apply Phi_derivable_pt_lim. }
  assert (Hh : forall z, derivable_pt_lim h z (h' z)).
  { intro z. unfold h, h'.
    apply derivable_pt_lim_minus; [| apply Phi_derivable_pt_lim].
    apply (derivable_pt_lim_mult E (fun z => Phi (z + a))); [apply HE | apply HP]. }
  assert (Hh' : forall z, 0 <= h' z).
  { intro z. unfold h'.
    replace (E z * phi (z + a)) with (phi z)
      by (unfold phi, E; rewrite <- (gauss_shift z a); unfold Rdiv; ring).
    replace (E z * a * Phi (z + a) + phi z - phi z)
      with (E z * a * Phi (z + a)) by ring.
    apply Rmult_le_pos; [| apply Phi_ge_0].
    apply Rmult_le_pos; [left; apply exp_pos | exact Ha]. }
  assert (Hmono := monotone_of_derivative h h' Hh Hh').
  apply Rnot_lt_le. intro Hlt.
  destruct (Phi_vanishes (Phi x - E x * Phi (x + a))) as [y0 Hy0]; [unfold E; lra |].
  pose (y := Rmin x y0).
  assert (Hyx : y <= x) by apply Rmin_l.
  specialize (Hy0 y (Rmin_r _ _)). specialize (Hmono y x Hyx). unfold h in Hmono.
  pose proof (Phi_ge_0 (y + a)). pose proof (exp_pos (y * a + a * a / 2)).
  unfold E in *. nra.
Qed.

End NormalFacts.

(** ** The formulas over the reals *)

Section FormulaFacts.

Local Open Scope R_scope.

Variables S K T r sigma : R.
Hypothesis S_pos : 0 < S.
Hypothesis K_pos : 0 < K.
Hypothesis T_pos : 0 < T.
Hypothesis sigma_pos : 0 < sigma.

Lemma volatility_pos : 0 < sigma * sqrt T.
Proof. apply Rmult_lt_0_compat; [exact sigma_pos | apply sqrt_lt_R0, T_pos]. Qed.

(** [d1] is [d2] plus [sigma * sqrt T]. *)
Lemma d2_plus_volatility : formula_d2 S K T r sigma + sigma * sqrt T = formula_d1 S K T r sigma.
Proof.
  pose proof (sqrt_lt_R0 T T_pos) as Hp.
  pose proof (sqrt_sqrt T (Rlt_le _ _ T_pos)) as Hs.
  unfold formula_d1, formula_d2.
  revert Hp Hs. generalize (sqrt T). intros s Hp Hs.
  rewrite <- Hs. replace 0.5 with (1 / 2) by lra. field. lra.
Qed.

Lemma exp_d2_volatility :
  exp (formula_d2 S K T r sigma * (sigma * sqrt T) + (sigma * sqrt T) * (sigma * sqrt T) / 2)
  = S / K * exp (r * T).
Proof.
  pose proof (sqrt_lt_R0 T T_pos) as Hp.
  pose proof (sqrt_sqrt T (Rlt_le _ _ T_pos)) as Hs.
  assert (Hq : 0 < S / K) by (apply Rdiv_lt_0_compat; assumption).
  rewrite <- (exp_ln (S / K) Hq) at 1. rewrite <- exp_plus. f_equal.
  unfold formula_d2. replace 0.5 with (1 / 2) by lra.
  replace ((ln (S / K) + (r - 1 / 2 * sigma ^ 2) * T) / (sigma * sqrt T) * (sigma * sqrt T))
    with (ln (S / K) + (r - 1 / 2 * sigma ^ 2) * T) by (field; lra).
  replace (sigma * sqrt T * (sigma * sqrt T)) with (sigma ^ 2 * (sqrt T * sqrt T)) by ring.
  rewrite Hs. lra.
Qed.

Lemma exp_d1_volatility :
  exp (- formula_d1 S K T r sigma * (sigma * sqrt T) + (sigma * sqrt T) * (sigma * sqrt T) / 2)
  = K / S * exp (- (r * T)).
Proof.
  pose proof (sqrt_lt_R0 T T_pos) as Hp.
  pose proof (sqrt_sqrt T (Rlt_le _ _ T_pos)) as Hs.
  assert (Hq : 0 < K / S) by (apply Rdiv_lt_0_compat; assumption).
  rewrite <- (exp_ln (K / S) Hq) at 1. rewrite <- exp_plus. f_equal.
  replace (K / S) with (/ (S / K)) by (field; lra).
  rewrite ln_Rinv by (apply Rdiv_lt_0_compat; assumption).
  unfold formula_d1. replace 0.5 with (1 / 2) by lra.
  replace (- ((ln (S / K) + (r + 1 / 2 * sigma ^ 2) * T) / (sigma * sqrt T)) * (sigma * sqrt T))
    with (- (ln (S / K) + (r + 1 / 2 * sigma ^ 2) * T)) by (field; lra).
  replace (sigma * sqrt T * (sigma * sqrt T)) with (sigma ^ 2 * (sqrt T * sqrt T)) by ring.
  rewrite Hs. lra.
Qed.

Lemma price_call_nonneg : 0 <= price_call S K T r sigma.
Proof.
  pose proof volatility_pos as Hv.
  pose proof (Phi_shift (formula_d2 S K T r sigma) (sigma * sqrt T) (Rlt_le _ _ Hv)) as H.
  rewrite exp_d2_volatility, d2_plus_volatility in H.
  unfold price_call.
  assert (HK : 0 < K * exp (- (r * T))) by (apply Rmult_lt_0_compat; [exact K_pos | apply exp_pos]).
  apply (Rmult_le_compat_l _ _ _ (Rlt_le _ _ HK)) in H.
  replace (K * exp (- (r * T)) * (S / K * exp (r * T) * Phi (formula_d1 S K T r sigma)))
    with (S * Phi (formula_d1 S K T r sigma) * (exp (- (r * T)) * exp (r * T))) in H by (field; lra).
  rewrite <- exp_plus in H.
  replace (- (r * T) + r * T) with 0 in H by ring. rewrite exp_0 in H. lra.
Qed.

Lemma price_put_nonneg : 0 <= price_put S K T r sigma.
Proof.
  pose proof volatility_pos as Hv.
  pose proof (Phi_shift (- formula_d1 S K T r sigma) (sigma * sqrt T) (Rlt_le _ _ Hv)) as H.
  rewrite exp_d1_volatility in H.
  replace (- formula_d1 S K T r sigma + sigma * sqrt T) with (- formula_d2 S K T r sigma) in H
    by (rewrite <- d2_plus_volatility; ring).
  unfold price_put.
  apply (Rmult_le_compat_l S _ _ (Rlt_le _ _ S_pos)) in H.
  replace (S * (K / S * exp (- (r * T)) * Phi (- formula_d2 S K T r sigma)))
    with (K * exp (- (r * T)) * Phi (- formula_d2 S K T r sigma)) in H by (field; lra).
  lra.
Qed.

End FormulaFacts.

(** Parity of the two formulas: it rests on the symmetry of [Phi]
    alone. *)
Lemma put_call_parity_formula (S K T r sigma : R) :
  (price_call S K T r sigma - price_put S K T r sigma = S - K * exp (- (r * T)))%R.
Proof.
  unfold price_call, price_put. rewrite !Phi_symmetry. ring.
Qed.

(** ** The hooks in exact arithmetic *)

Section ExactPricing.

Local Open Scope R_scope.

Lemma exact_truediv_nonzero x y : y <> 0 -> exact_truediv x y = Return (x / y).
Proof.
  intro Hy. unfold exact_truediv. destruct (Req_dec_T y 0); [contradiction | reflexivity].
Qed.

Lemma local_d1_exact (self : BlackScholesModel R) :
  self_K self <> 0 ->
  local_d1 self
  = (Return (formula_d1 (self_S self) (self_K self) (self_T self)
               (self_r self) (self_sigma self)), self).
Proof.
  intro HK. unfold local_d1, bind, attr, eval, ret. simpl.
  rewrite (exact_truediv_nonzero _ _ HK). reflexivity.
Qed.

Lemma local_d2_exact (self : BlackScholesModel R) :
  self_K self <> 0 ->
  local_d2 self
  = (Return (formula_d2 (self_S self) (self_K self) (self_T self)
               (self_r self) (self_sigma self)), self).
Proof.
  intro HK. unfold local_d2, bind, attr, eval, ret. simpl.
  rewrite (exact_truediv_nonzero _ _ HK). reflexivity.
Qed.

Lemma Phi_standard x : Phi ((x - 0) / 1) = Phi x.
Proof. f_equal. field. Qed.

(** In exact arithmetic the call hook returns the specification's
    formula, with [Phi] the standard normal distribution function. *)
Lemma call_price_exact (self : BlackScholesModel R) :
  valid_exact self ->
  BlackScholesModel_calculate_call_option_price self
  = (Return (PyFloat (price_call (self_S self) (self_K self) (self_T self)
                        (self_r self) (self_sigma self))), self).
Proof.
  intros (_ & HK & _ & _). assert (HK' : self_K self <> 0) by lra.
  unfold BlackScholesModel_calculate_call_option_price, bind.
  rewrite (local_d1_exact self HK'), (local_d2_exact self HK').
  unfold attr, ret, price_call. simpl. rewrite !Phi_standard.
  replace (- self_r self * self_T self) with (- (self_r self * self_T self)) by ring.
  reflexivity.
Qed.

(** In exact arithmetic the put hook returns the specification's
    formula. *)
Lemma put_price_exact (self : BlackScholesModel R) :
  valid_exact self ->
  BlackScholesModel_calculate_put_option_price self
  = (Return (PyFloat (price_put (self_S self) (self_K self) (self_T self)
                        (self_r self) (self_sigma self))), self).
Proof.
  intros (_ & HK & _ & _). assert (HK' : self_K self <> 0) by lra.
  unfold BlackScholesModel_calculate_put_option_price, bind.
  rewrite (local_d1_exact self HK'), (local_d2_exact self HK').
  unfold attr, ret, price_put. simpl. rewrite !Phi_standard.
  replace (- self_r self * self_T self) with (- (self_r self * self_T self)) by ring.
  reflexivity.
Qed.

(** C4, amended.  For every valid parameter set ([S], [K], [T] and
    [sigma] positive, any real [r]), in exact arithmetic the prices
    returned for the two selectors on the same model satisfy put-call
    parity exactly: the call price minus the put price is
    [S - K * exp(-r*T)]. *)
Theorem put_call_parity_exact (self : BlackScholesModel R) :
  valid_exact self ->
  exists call put : R,
    calculate_option_price (PyStr "Call Option") self = (Return (PyFloat call), self)
    /\ calculate_option_price (PyStr "Put Option") self = (Return (PyFloat put), self)
    /\ call - put = self_S self - self_K self * exp (- (self_r self * self_T self)).
Proof.
  intro Hvalid.
  exists (price_call (self_S self) (self_K self) (self_T self) (self_r self) (self_sigma self)),
         (price_put (self_S self) (self_K self) (self_T self) (self_r self) (self_sigma self)).
  split; [exact (call_price_exact self Hvalid) |].
  split; [exact (put_price_exact self Hvalid) |].
  apply put_call_parity_formula.
Qed.

(** C7, amended.  For every valid parameter set, in exact arithmetic both
    returned prices are non-negative, the call price is at least
    [max(S - K*exp(-r*T), 0)] and the put price at least
    [max(K*exp(-r*T) - S, 0)]. *)
Theorem no_arbitrage_bounds_exact (self : BlackScholesModel R) :
  valid_exact self ->
  exists call put : R,
    calculate_option_price (PyStr "Call Option") self = (Return (PyFloat call), self)
    /\ calculate_option_price (PyStr "Put Option") self = (Return (PyFloat put), self)
    /\ 0 <= call /\ 0 <= put
    /\ Rmax (self_S self - self_K self * exp (- (self_r self * self_T self))) 0 <= call
    /\ Rmax (self_K self * exp (- (self_r self * self_T self)) - self_S self) 0 <= put.
Proof.
  intro Hvalid. pose proof Hvalid as (HS & HK & HT & Hsigma).
  pose proof (price_call_nonneg _ _ _ (self_r self) _ HS HK HT Hsigma) as Hcall.
  pose proof (price_put_nonneg _ _ _ (self_r self) _ HS HK HT Hsigma) as Hput.
  pose proof (put_call_parity_formula (self_S self) (self_K self) (self_T self)
                (self_r self) (self_sigma self)) as Hparity.
  exists (price_call (self_S self) (self_K self) (self_T self) (self_r self) (self_sigma self)),
         (price_put (self_S self) (self_K self) (self_T self) (self_r self) (self_sigma self)).
  split; [exact (call_price_exact self Hvalid) |].
  split; [exact (put_price_exact self Hvalid) |].
  repeat split; try assumption.
  - apply Rmax_lub; lra.
  - apply Rmax_lub; lra.
Qed.

(** C9, amended.  For every valid parameter set, in exact arithmetic the
    value the implementation binds to [d2] equals [d1 - sigma * sqrt(T)]. *)
Theorem d2_is_d1_minus_volatility_exact (self : BlackScholesModel R) :
  valid_exact self ->
  exists d1 d2 : R,
    local_d1 self = (Return d1, self)
    /\ local_d2 self = (Return d2, self)
    /\ d2 = d1 - self_sigma self * sqrt (self_T self).
Proof.
  intros (HS & HK & HT & Hsigma). assert (HK' : self_K self <> 0) by lra.
  exists (formula_d1 (self_S self) (self_K self) (self_T self) (self_r self) (self_sigma self)),
         (formula_d2 (self_S self) (self_K self) (self_T self) (self_r self) (self_sigma self)).
  split; [exact (local_d1_exact self HK') |].
  split; [exact (local_d2_exact self HK') |].
  rewrite <- (d2_plus_volatility _ _ _ (self_r self) _ HT Hsigma). ring.
Qed.


End ExactPricing.

(** Parity on the textbook parameters. *)
Lemma put_call_parity_exact_witness :
  exists call put : R,
    calculate_option_price (PyStr "Call Option") textbook_model_exact
    = (Return (PyFloat call), textbook_model_exact)
    /\ calculate_option_price (PyStr "Put Option") textbook_model_exact
       = (Return (PyFloat put), textbook_model_exact)
    /\ (call - put = 100 - 100 * exp (- (0.05 * 1)))%R.
Proof.
  apply (put_call_parity_exact textbook_model_exact).
  unfold valid_exact. simpl. repeat split; lra.
Defined.

(** The bounds on the textbook parameters. *)
Lemma no_arbitrage_bounds_exact_witness :
  exists call put : R,
    calculate_option_price (PyStr "Call Option") textbook_model_exact
    = (Return (PyFloat call), textbook_model_exact)
    /\ calculate_option_price (PyStr "Put Option") textbook_model_exact
       = (Return (PyFloat put), textbook_model_exact)
    /\ (0 <= call)%R /\ (0 <= put)%R
    /\ (Rmax (100 - 100 * exp (- (0.05 * 1))) 0 <= call)%R
    /\ (Rmax (100 * exp (- (0.05 * 1)) - 100) 0 <= put)%R.
Proof.
  apply (no_arbitrage_bounds_exact textbook_model_exact).
  unfold valid_exact. simpl. repeat split; lra.
Defined.

(** [d2] on the textbook parameters. *)
Lemma d2_is_d1_minus_volatility_exact_witness :
  exists d1 d2 : R,
    local_d1 textbook_model_exact = (Return d1, textbook_model_exact)
    /\ local_d2 textbook_model_exact = (Return d2, textbook_model_exact)
    /\ (d2 = d1 - 0.2 * sqrt 1)%R.
Proof.
  apply (d2_is_d1_minus_volatility_exact textbook_model_exact).
  unfold valid_exact. simpl. repeat split; lra.
Defined.

(** ** The textbook prices *)

(** The scenario of the specification, [S = K = 100], one year, [r = 0.05],
    [sigma = 0.2], has [d1 = 0.35] and [d2 = 0.15] in exact arithmetic.  Its
    prices are enclosed by enclosing [exp (- 0.05)], the integrals of the
    Gaussian up to [0.35] and [0.15], and half of its total mass. *)

Section Series.

Local Open Scope R_scope.













End Series.

Section Tail.

Local Open Scope R_scope.




End Tail.

(** The polynomials over the rationals are the polynomials over the
    reals. *)
Section Rational.









End Rational.

Section Bounds.

Local Open Scope R_scope.







End Bounds.

Section Textbook.

Local Open Scope R_scope.













End Textbook.

(** * Further properties *)


(** [BlackScholesModel(100, 100, -365, 0.05, 0.2)] *)
Definition negative_maturity_model : BlackScholesModel float :=
  {| self_S := 100%float; self_K := 100%float; self_T := (-1)%float;
     self_r := 0.05%float; self_sigma := 0.2%float |}.

(** ** The hooks fail together *)

Section HooksTogether.

Context {F : Type} `{PyNum F}.

(** X3.  Whatever the arithmetic, the two hooks raise on the same models
    and raise the same exception: both evaluate [d1] and [d2] before
    anything else. *)
Theorem hooks_raise_together (self : BlackScholesModel F) (e : exn) :
  fst (BlackScholesModel_calculate_call_option_price self) = Raise e
  <-> fst (BlackScholesModel_calculate_put_option_price self) = Raise e.
Proof.
  destruct (float_truediv (self_S self) (self_K self)) as [q | e1] eqn:Hq;
    destruct (float_pow_2 (self_sigma self)) as [p | e2] eqn:Hp;
    unfold BlackScholesModel_calculate_call_option_price,
      BlackScholesModel_calculate_put_option_price, local_d1, local_d2,
      bind, attr, eval, ret;
    simpl; repeat (progress (rewrite ?Hq, ?Hp; simpl)); try reflexivity.
  split; intro Hd; discriminate Hd.
Qed.

End HooksTogether.

(** ** Exceptions and NaN on doubles *)

Section Binary64Edges.

Context {L : MathLib}.

Local Open Scope float_scope.

Lemma float_sub_nan_r (x : float) : x - nan = nan.
Proof.
  apply Prim2SF_inj. rewrite sub_spec.
  change (Prim2SF nan) with S754_nan.
  destruct (Prim2SF x); reflexivity.
Qed.

Lemma float_div_nan_r (x : float) : x / nan = nan.
Proof.
  apply Prim2SF_inj. rewrite div_spec.
  change (Prim2SF nan) with S754_nan.
  destruct (Prim2SF x); reflexivity.
Qed.

(** The square root of a negative number (zero apart) and of NaN is
    NaN. *)
Lemma float_sqrt_not_nonnegative (x : float) :
  (0 <=? x) = false -> PrimFloat.sqrt x = nan.
Proof.
  rewrite leb_spec. change (Prim2SF 0) with (S754_zero false).
  intro Hneg. apply Prim2SF_inj. rewrite sqrt_spec.
  change (Prim2SF nan) with S754_nan.
  destruct (Prim2SF x) as [s | s | | s m e]; simpl in Hneg; try discriminate;
    try reflexivity; destruct s; try discriminate; reflexivity.
Qed.

Lemma float_is_nan (x : float) : is_nan x = true -> x = nan.
Proof.
  unfold is_nan. rewrite eqb_spec. intro Hnan. apply Prim2SF_inj.
  change (Prim2SF nan) with S754_nan.
  destruct (Prim2SF x) as [s | s | | s m e]; try reflexivity; exfalso.
  - destruct s; discriminate Hnan.
  - destruct s; discriminate Hnan.
  - unfold SFeqb, SFcompare in Hnan.
    rewrite Z.compare_refl in Hnan.
    assert (Hm : Pos.compare_cont Eq m m = Eq) by apply Pos.compare_refl.
    destruct s; rewrite Hm in Hnan; discriminate Hnan.
Qed.

Lemma float_mul_nan_l (x : float) : nan * x = nan.
Proof.
  apply Prim2SF_inj. rewrite mul_spec.
  change (Prim2SF nan) with S754_nan. reflexivity.
Qed.



Lemma nan_d_gives_nan_prices (self : BlackScholesModel float) :
  lib_norm_cdf nan 0 1 = nan ->
  (self_K self =? 0) = false ->
  pow_2_in_range (self_sigma self) = true ->
  d1_binary64 (self_S self) (self_K self) (self_T self) (self_r self) (self_sigma self)
  = nan
  \/ d2_binary64 (self_S self) (self_K self) (self_T self) (self_r self) (self_sigma self)
     = nan ->
  BlackScholesModel_calculate_call_option_price self = (Return (PyFloat nan), self)
  /\ BlackScholesModel_calculate_put_option_price self = (Return (PyFloat nan), self).
Proof.
  intros Hcdf HK Hpow Hnan.
  unfold BlackScholesModel_calculate_call_option_price,
    BlackScholesModel_calculate_put_option_price, bind.
  rewrite (local_d1_binary64 self HK Hpow), (local_d2_binary64 self HK Hpow).
  unfold attr, ret. simpl.
  destruct Hnan as [Hd | Hd]; rewrite Hd;
    change (- nan) with nan; rewrite Hcdf, !float_mul_nan_r;
    rewrite ?float_sub_nan_l, ?float_sub_nan_r; split; reflexivity.
Qed.

(** X4.  NaN is never masked: when the library's distribution function
    maps NaN to NaN and the value bound to [d1] or to [d2] is NaN, both
    selectors return NaN. *)
Theorem nan_propagates (self : BlackScholesModel float) :
  lib_norm_cdf nan 0 1 = nan ->
  (self_K self =? 0) = false ->
  pow_2_in_range (self_sigma self) = true ->
  d1_binary64 (self_S self) (self_K self) (self_T self) (self_r self) (self_sigma self)
  = nan
  \/ d2_binary64 (self_S self) (self_K self) (self_T self) (self_r self) (self_sigma self)
     = nan ->
  calculate_option_price (PyStr "Call Option") self = (Return (PyFloat nan), self)
  /\ calculate_option_price (PyStr "Put Option") self = (Return (PyFloat nan), self).
Proof.
  intros Hcdf HK Hpow Hnan. unfold calculate_option_price. simpl.
  exact (nan_d_gives_nan_prices self Hcdf HK Hpow Hnan).
Qed.

(** X5.  A time to maturity that is negative or NaN, and a volatility that
    is NaN, are not rejected: the denominator of [d1] is NaN, and both
    selectors return NaN. *)
Theorem invalid_maturity_or_volatility_gives_nan (self : BlackScholesModel float) :
  lib_norm_cdf nan 0 1 = nan ->
  (self_K self =? 0) = false ->
  pow_2_in_range (self_sigma self) = true ->
  (0 <=? self_T self) = false \/ is_nan (self_sigma self) = true ->
  calculate_option_price (PyStr "Call Option") self = (Return (PyFloat nan), self)
  /\ calculate_option_price (PyStr "Put Option") self = (Return (PyFloat nan), self).
Proof.
  intros Hcdf HK Hpow Hcase. unfold calculate_option_price. simpl.
  apply (nan_d_gives_nan_prices self Hcdf HK Hpow).
  left. unfold d1_binary64.
  assert (Hden : self_sigma self * PrimFloat.sqrt (self_T self) = nan).
  { destruct Hcase as [HT | Hsigma].
    - rewrite (float_sqrt_not_nonnegative _ HT). apply float_mul_nan_r.
    - rewrite (float_is_nan _ Hsigma). apply float_mul_nan_l. }
  rewrite Hden. apply float_div_nan_r.
Qed.

(** A division by a zero, of either sign, gives an infinity or NaN. *)
Lemma float_div_zero (x y : float) :
  (y =? 0) = true -> x / y = infinity \/ x / y = neg_infinity \/ x / y = nan.
Proof.
  rewrite eqb_spec. change (Prim2SF 0) with (S754_zero false). intro Hy.
  assert (Hcases : Prim2SF (x / y) = S754_infinity false
                   \/ Prim2SF (x / y) = S754_infinity true
                   \/ Prim2SF (x / y) = S754_nan).
  { rewrite div_spec.
    destruct (Prim2SF y) as [sy | sy | | sy my ey]; simpl in Hy; try discriminate;
      try (destruct sy; discriminate).
    destruct (Prim2SF x) as [sx | sx | | sx mx ex]; simpl; auto;
      destruct sx, sy; simpl; auto. }
  destruct Hcases as [H | [H | H]]; [left | right; left | right; right];
    apply Prim2SF_inj; rewrite H; reflexivity.
Qed.

(** X6.  When [sigma * sqrt(T)] is zero (a zero volatility, a zero time to
    maturity, or an underflow of the product) and the strike is not, no
    exception is raised and the values bound to [d1] and [d2] are each
    an infinity or NaN. *)
Theorem zero_denominator_is_not_an_error (self : BlackScholesModel float) :
  (self_K self =? 0) = false ->
  pow_2_in_range (self_sigma self) = true ->
  (self_sigma self * PrimFloat.sqrt (self_T self) =? 0) = true ->
  exists d1 d2 : float,
    local_d1 self = (Return d1, self)
    /\ local_d2 self = (Return d2, self)
    /\ (d1 = infinity \/ d1 = neg_infinity \/ d1 = nan)
    /\ (d2 = infinity \/ d2 = neg_infinity \/ d2 = nan).
Proof.
  intros HK Hpow Hden.
  exists (d1_binary64 (self_S self) (self_K self) (self_T self) (self_r self)
            (self_sigma self)),
         (d2_binary64 (self_S self) (self_K self) (self_T self) (self_r self)
            (self_sigma self)).
  split; [exact (local_d1_binary64 self HK Hpow) |].
  split; [exact (local_d2_binary64 self HK Hpow) |].
  unfold d1_binary64, d2_binary64. split; apply float_div_zero, Hden.
Qed.

End Binary64Edges.

(** [BlackScholesModel(100, 100, 1e-300, 0, 1e-200)] has a NaN [d1]. *)
Lemma nan_propagates_witness :
  @calculate_option_price float _
    (@BlackScholesModel_OptionPricingModel float (@binary64 special_points))
    (PyStr "Call Option") underflow_model
  = (Return (PyFloat nan), underflow_model)
  /\ @calculate_option_price float _
       (@BlackScholesModel_OptionPricingModel float (@binary64 special_points))
       (PyStr "Put Option") underflow_model
     = (Return (PyFloat nan), underflow_model).
Proof.
  apply (@nan_propagates special_points underflow_model);
    [reflexivity | reflexivity | reflexivity | left; reflexivity].
Defined.

(** [BlackScholesModel(100, 100, -365, 0.05, 0.2)] returns NaN. *)
Lemma invalid_maturity_or_volatility_gives_nan_witness :
  @calculate_option_price float _
    (@BlackScholesModel_OptionPricingModel float (@binary64 special_points))
    (PyStr "Call Option") negative_maturity_model
  = (Return (PyFloat nan), negative_maturity_model)
  /\ @calculate_option_price float _
       (@BlackScholesModel_OptionPricingModel float (@binary64 special_points))
       (PyStr "Put Option") negative_maturity_model
     = (Return (PyFloat nan), negative_maturity_model).
Proof.
  apply (@invalid_maturity_or_volatility_gives_nan special_points
           negative_maturity_model);
    [reflexivity | reflexivity | reflexivity | left; reflexivity].
Defined.



(** At expiry the denominator is zero. *)
Lemma zero_denominator_is_not_an_error_witness :
  exists d1 d2 : float,
    @local_d1 float (@binary64 special_points) expiry_model = (Return d1, expiry_model)
    /\ @local_d2 float (@binary64 special_points) expiry_model = (Return d2, expiry_model)
    /\ (d1 = infinity \/ d1 = neg_infinity \/ d1 = nan)
    /\ (d2 = infinity \/ d2 = neg_infinity \/ d2 = nan).
Proof.
  apply (@zero_denominator_is_not_an_error special_points expiry_model); reflexivity.
Defined.

(** ** Bounds and scaling in exact arithmetic *)

Section ExactProperties.

Local Open Scope R_scope.

Lemma formula_d1_scale (c S K T r sigma : R) :
  c <> 0 -> K <> 0 -> formula_d1 (c * S) (c * K) T r sigma = formula_d1 S K T r sigma.
Proof.
  intros Hc HK. unfold formula_d1.
  replace (c * S / (c * K)) with (S / K) by (field; split; assumption).
  reflexivity.
Qed.

Lemma formula_d2_scale (c S K T r sigma : R) :
  c <> 0 -> K <> 0 -> formula_d2 (c * S) (c * K) T r sigma = formula_d2 S K T r sigma.
Proof.
  intros Hc HK. unfold formula_d2.
  replace (c * S / (c * K)) with (S / K) by (field; split; assumption).
  reflexivity.
Qed.

(** X7.  In exact arithmetic, for every valid parameter set the call price
    is at most the spot price and the put price at most the discounted
    strike. *)
Theorem price_upper_bounds_exact (self : BlackScholesModel R) :
  valid_exact self ->
  exists call put : R,
    calculate_option_price (PyStr "Call Option") self = (Return (PyFloat call), self)
    /\ calculate_option_price (PyStr "Put Option") self = (Return (PyFloat put), self)
    /\ call <= self_S self
    /\ put <= self_K self * exp (- (self_r self * self_T self)).
Proof.
  intro Hvalid. pose proof Hvalid as (HS & HK & _ & _).
  exists (price_call (self_S self) (self_K self) (self_T self) (self_r self) (self_sigma self)),
         (price_put (self_S self) (self_K self) (self_T self) (self_r self) (self_sigma self)).
  split; [exact (call_price_exact self Hvalid) |].
  split; [exact (put_price_exact self Hvalid) |].
  assert (HKe : 0 < self_K self * exp (- (self_r self * self_T self)))
    by (apply Rmult_lt_0_compat; [exact HK | apply exp_pos]).
  unfold price_call, price_put.
  set (d1 := formula_d1 _ _ _ _ _). set (d2 := formula_d2 _ _ _ _ _).
  pose proof (Phi_le_1 d1). pose proof (Phi_ge_0 d2).
  pose proof (Phi_le_1 (- d2)). pose proof (Phi_ge_0 (- d1)).
  split; nra.
Qed.

(** X8.  In exact arithmetic both prices are homogeneous of degree one in
    spot and strike: scaling [S] and [K] by [c > 0] scales the two prices
    by [c]. *)
Theorem prices_scale_exact (self : BlackScholesModel R) (c : R) :
  valid_exact self ->
  0 < c ->
  let scaled := {| self_S := c * self_S self; self_K := c * self_K self;
                   self_T := self_T self; self_r := self_r self;
                   self_sigma := self_sigma self |} in
  exists call put : R,
    calculate_option_price (PyStr "Call Option") self = (Return (PyFloat call), self)
    /\ calculate_option_price (PyStr "Put Option") self = (Return (PyFloat put), self)
    /\ calculate_option_price (PyStr "Call Option") scaled
       = (Return (PyFloat (c * call)), scaled)
    /\ calculate_option_price (PyStr "Put Option") scaled
       = (Return (PyFloat (c * put)), scaled).
Proof.
  intros Hvalid Hc scaled. pose proof Hvalid as (HS & HK & HT & Hsigma).
  assert (Hscaled : valid_exact scaled).
  { unfold valid_exact, scaled. simpl. repeat split; try assumption;
      apply Rmult_lt_0_compat; assumption. }
  exists (price_call (self_S self) (self_K self) (self_T self) (self_r self) (self_sigma self)),
         (price_put (self_S self) (self_K self) (self_T self) (self_r self) (self_sigma self)).
  split; [exact (call_price_exact self Hvalid) |].
  split; [exact (put_price_exact self Hvalid) |].
  assert (Hc' : c <> 0) by lra. assert (HK' : self_K self <> 0) by lra.
  split.
  - change (calculate_option_price (PyStr "Call Option") scaled)
      with (BlackScholesModel_calculate_call_option_price scaled).
    rewrite (call_price_exact scaled Hscaled). unfold scaled. simpl.
    unfold price_call. rewrite formula_d1_scale, formula_d2_scale by assumption.
    do 3 f_equal. ring.
  - change (calculate_option_price (PyStr "Put Option") scaled)
      with (BlackScholesModel_calculate_put_option_price scaled).
    rewrite (put_price_exact scaled Hscaled). unfold scaled. simpl.
    unfold price_put. rewrite formula_d1_scale, formula_d2_scale by assumption.
    do 3 f_equal. ring.
Qed.

End ExactProperties.

(** The upper bounds on the textbook parameters. *)
Lemma price_upper_bounds_exact_witness :
  exists call put : R,
    calculate_option_price (PyStr "Call Option") textbook_model_exact
    = (Return (PyFloat call), textbook_model_exact)
    /\ calculate_option_price (PyStr "Put Option") textbook_model_exact
       = (Return (PyFloat put), textbook_model_exact)
    /\ (call <= 100)%R
    /\ (put <= 100 * exp (- (0.05 * 1)))%R.
Proof.
  apply (price_upper_bounds_exact textbook_model_exact).
  unfold valid_exact. simpl. repeat split; lra.
Defined.

(** Doubling spot and strike of the textbook parameters. *)
Lemma prices_scale_exact_witness :
  let scaled := {| self_S := (2 * 100)%R; self_K := (2 * 100)%R; self_T := 1%R;
                   self_r := 0.05%R; self_sigma := 0.2%R |} in
  exists call put : R,
    calculate_option_price (PyStr "Call Option") textbook_model_exact
    = (Return (PyFloat call), textbook_model_exact)
    /\ calculate_option_price (PyStr "Put Option") textbook_model_exact
       = (Return (PyFloat put), textbook_model_exact)
    /\ calculate_option_price (PyStr "Call Option") scaled
       = (Return (PyFloat (2 * call)%R), scaled)
    /\ calculate_option_price (PyStr "Put Option") scaled
       = (Return (PyFloat (2 * put)%R), scaled).
Proof.
  apply (prices_scale_exact textbook_model_exact 2%R).
  - unfold valid_exact. simpl. repeat split; lra.
  - lra.
Defined.
